(** * Shallow embedding of gestalt's IconButtonEnd, Checkbox and DatePicker

    Each React component is modelled as a pure render function from its
    (defaulted) props and local state to a tree of child elements with the
    props they receive, and each event handler as a function from the local
    state to the new local state and the callbacks it fires. *)

From Stdlib Require Import String List ZArith Bool Lia.
Import ListNotations.
Open Scope string_scope.

(** ** Key codes ([packages/gestalt/src/keyCodes]) *)

(** DOM [keyCode] values of the constants imported by IconButtonEnd. *)
Definition ENTER : Z := 13%Z.
Definition SPACE : Z := 32%Z.
Definition TAB : Z := 9%Z.

(** [Array.prototype.includes] on a list of numbers. *)
Definition includes (xs : list Z) (x : Z) : bool :=
  existsb (fun y => Z.eqb y x) xs.

Module IconButtonEnd.

(** A JavaScript value of type [string | null | undefined]. *)
Inductive NullableString :=
| JUndefined
| JNull
| JStr (s : string).

(** JavaScript truthiness of such a value. *)
Definition truthy (v : NullableString) : bool :=
  match v with
  | JStr s => negb (String.eqb s "")
  | _ => false
  end.

Inductive HoverStyle := HSDefault | HSNone.

Definition hoverStyle_eqb (a b : HoverStyle) : bool :=
  match a, b with
  | HSDefault, HSDefault | HSNone, HSNone => true
  | _, _ => false
  end.

Inductive IconName :=
| ArrowDown | Cancel | Eye | EyeHide | CompactChevronDown | CompactCancel.

Inductive Role := RSwitch.

Inductive BgColor := LightGray | Transparent.

(** Props of IconButtonEnd as the caller supplies them ([?] fields are
    options). [tapStyle] is forwarded untouched; it is kept abstract as a
    string. *)
Record Props := {
  accessibilityChecked : option bool;
  accessibilityHidden : option bool;
  accessibilityLabel : option string;
  hoverStyle : option HoverStyle;
  icon : IconName;
  pogPadding : option Z;
  role : option Role;
  tapStyle : option string;
  tooltipText : NullableString
}.

(** Props received by [Pog]. *)
Record PogProps := {
  pog_accessibilityLabel : string;
  pog_bgColor : BgColor;
  pog_icon : IconName;
  pog_iconColor : string;
  pog_padding : Z;
  pog_size : string
}.

(** Props received by [TapArea] (event handlers are modelled by
    [handle] below, not as data). *)
Record TapAreaProps := {
  ta_accessibilityChecked : option bool;
  ta_accessibilityLabel : option string;
  ta_role : option Role;
  ta_rounding : string;
  ta_tabIndex : Z;
  ta_tapStyle : option string
}.

(** The rendered element tree. *)
Inductive Elem :=
| Div (className : string) (child : Elem)
| Box (aria_hidden : option bool) (child : Elem)
| Tooltip (inline : bool) (text : string) (child : Elem)
| TapArea (p : TapAreaProps) (child : Elem)
| Pog (p : PogProps).

(** [function MaybeTooltip({ children, tooltipText })] *)
Definition MaybeTooltip (tooltipText : NullableString) (children : Elem) : Elem :=
  match tooltipText with
  | JStr s => if truthy tooltipText then Tooltip true s children else children
  | _ => children
  end.

(** Defaulted props: [hoverStyle = 'default'], [pogPadding = 1]. *)
Definition hoverStyle_d (p : Props) : HoverStyle :=
  match hoverStyle p with Some h => h | None => HSDefault end.
Definition pogPadding_d (p : Props) : Z :=
  match pogPadding p with Some n => n | None => 1%Z end.

(** The [Pog] child, given the local [focused] state. *)
Definition render_pog (p : Props) (focused : bool) : PogProps := {|
  pog_accessibilityLabel := "";
  pog_bgColor := if focused && hoverStyle_eqb (hoverStyle_d p) HSDefault
                 then LightGray else Transparent;
  pog_icon := icon p;
  pog_iconColor := "darkGray";
  pog_padding := pogPadding_d p;
  pog_size := "xs"
|}.

Definition render_taparea_props (p : Props) : TapAreaProps := {|
  ta_accessibilityChecked := accessibilityChecked p;
  ta_accessibilityLabel := accessibilityLabel p;
  ta_role := role p;
  ta_rounding := "circle";
  ta_tabIndex := match accessibilityHidden p with
                 | Some true => (-1)%Z
                 | _ => 0%Z
                 end;
  ta_tapStyle := tapStyle p
|}.

(** The [TapArea] subtree, before [MaybeTooltip]. *)
Definition render_taparea (p : Props) (focused : bool) : Elem :=
  TapArea (render_taparea_props p) (Pog (render_pog p focused)).

(** [IconButtonEnd(props)] rendered with local state [focused]. *)
Definition render (p : Props) (focused : bool) : Elem :=
  Div "actionButtonContainer"
    (Box (accessibilityHidden p)
       (MaybeTooltip (tooltipText p) (render_taparea p focused))).

(** [useState(false)] *)
Definition initial_focused : bool := false.

(** Events delivered to the TapArea. *)
Inductive TapEvent :=
| EvBlur
| EvFocus
| EvKeyDown (keyCode : Z)
| EvMouseEnter
| EvMouseLeave
| EvTap.

(** Result of one handler run: the new [focused] state, how many times the
    [onClick] prop was called, and whether [event.preventDefault()] ran. *)
Record Outcome := {
  out_focused : bool;
  out_onClick_calls : nat;
  out_defaultPrevented : bool
}.

(** The [onKeyDown] handler:
    [if ([ENTER, SPACE].includes(event.keyCode)) onClick();
     if (event.keyCode !== TAB) event.preventDefault();] *)
Definition onKeyDown (focused : bool) (keyCode : Z) : Outcome := {|
  out_focused := focused;
  out_onClick_calls := if includes [ENTER; SPACE] keyCode then 1 else 0;
  out_defaultPrevented := negb (Z.eqb keyCode TAB)
|}.

(** All handlers passed to TapArea. *)
Definition handle (focused : bool) (e : TapEvent) : Outcome :=
  match e with
  | EvBlur => {| out_focused := false; out_onClick_calls := 0; out_defaultPrevented := false |}
  | EvFocus => {| out_focused := true; out_onClick_calls := 0; out_defaultPrevented := false |}
  | EvKeyDown k => onKeyDown focused k
  | EvMouseEnter => {| out_focused := true; out_onClick_calls := 0; out_defaultPrevented := false |}
  | EvMouseLeave => {| out_focused := false; out_onClick_calls := 0; out_defaultPrevented := false |}
  | EvTap => {| out_focused := focused; out_onClick_calls := 1; out_defaultPrevented := false |}
  end.

(** Local state after a sequence of events, starting from [s]. *)
Fixpoint run (s : bool) (es : list TapEvent) : bool :=
  match es with
  | [] => s
  | e :: es' => run (out_focused (handle s e)) es'
  end.


(** The tap targets of a tree, each paired with whether some enclosing
    element carries [aria-hidden=true]. *)
Fixpoint tap_targets (hidden : bool) (e : Elem) : list (TapAreaProps * bool) :=
  match e with
  | Div _ c => tap_targets hidden c
  | Box ah c =>
      tap_targets (hidden || match ah with Some true => true | _ => false end) c
  | Tooltip _ _ c => tap_targets hidden c
  | TapArea t c => (t, hidden) :: tap_targets hidden c
  | Pog _ => []
  end.

(** The background colour of the Pog after a sequence of events from the
    initial state. *)
Definition bg_after (p : Props) (es : list TapEvent) : BgColor :=
  pog_bgColor (render_pog p (run initial_focused es)).

(** Whether the pointer is inside the element after a sequence of events:
    the last pointer enter/leave event was an enter. *)
Definition pointer_inside (es : list TapEvent) : bool :=
  fold_left (fun acc e => match e with
                          | EvMouseEnter => true
                          | EvMouseLeave => false
                          | _ => acc end) es false.

(** Whether the element holds keyboard focus after a sequence of events:
    the last focus/blur event was a focus. *)
Definition has_focus (es : list TapEvent) : bool :=
  fold_left (fun acc e => match e with
                          | EvFocus => true
                          | EvBlur => false
                          | _ => acc end) es false.

(** Whether the last of the focus, blur, pointer-enter and pointer-leave
    events was a focus or a pointer-enter. *)
Definition last_enter_or_focus (es : list TapEvent) : bool :=
  fold_left (fun acc e => match e with
                          | EvFocus | EvMouseEnter => true
                          | EvBlur | EvMouseLeave => false
                          | _ => acc end) es false.

(** A caller's props with every optional prop omitted. *)
Definition bare_props : Props := {|
  accessibilityChecked := None; accessibilityHidden := None;
  accessibilityLabel := None; hoverStyle := None; icon := Cancel;
  pogPadding := None; role := None; tapStyle := None;
  tooltipText := JUndefined
|}.

(** Total [onClick] calls made by the handlers over a sequence of events
    delivered from local state [s]. *)
Fixpoint run_calls (s : bool) (es : list TapEvent) : nat :=
  match es with
  | [] => 0
  | e :: es' => out_onClick_calls (handle s e) + run_calls (out_focused (handle s e)) es'
  end.

(** Whether an event is a tap or an Enter/Space key-down. *)
Definition is_activation (e : TapEvent) : bool :=
  match e with
  | EvTap => true
  | EvKeyDown k => includes [ENTER; SPACE] k
  | _ => false
  end.

(** [props] with [tooltipText] replaced. *)
Definition with_tooltipText (p : Props) (t : NullableString) : Props := {|
  accessibilityChecked := accessibilityChecked p;
  accessibilityHidden := accessibilityHidden p;
  accessibilityLabel := accessibilityLabel p; hoverStyle := hoverStyle p;
  icon := icon p; pogPadding := pogPadding p; role := role p;
  tapStyle := tapStyle p; tooltipText := t
|}.

End IconButtonEnd.

Module TapAreaDispatch.
Import IconButtonEnd.

(** One physical user action on the tap target. *)
Inductive PhysicalAction :=
| PointerClick
| KeyPress (keyCode : Z).

(** Modelled from the spec: TapArea's own activation path and the browser's
    synthesized activation (TapArea.tsx is not among the sources). A pointer
    click reaches [onTap]. A key press first reaches [onKeyDown]; an Enter or
    Space press is turned into a tap (TapArea's key-press activation, the
    browser's synthesized click) only when the key-down default action was
    not prevented. The result is the number of [onClick] calls made through
    the key-down path and through the [onTap] path. *)
Definition dispatch (focused : bool) (a : PhysicalAction) : nat * nat :=
  match a with
  | PointerClick => (0, out_onClick_calls (handle focused EvTap))
  | KeyPress k =>
      let o := handle focused (EvKeyDown k) in
      (out_onClick_calls o,
       if negb (out_defaultPrevented o) && includes [ENTER; SPACE] k
       then out_onClick_calls (handle (out_focused o) EvTap) else 0)
  end.

Definition total_calls (focused : bool) (a : PhysicalAction) : nat :=
  fst (dispatch focused a) + snd (dispatch focused a).

End TapAreaDispatch.

Module Checkbox.

Inductive LabelDisplay := LDVisible | LDHidden.
Inductive Size := SizeSm | SizeMd.

(** Caller-supplied props of Checkbox; callbacks, [image] and [ref] are kept
    as opaque names. *)
Record Props := {
  checked : option bool;
  disabled : option bool;
  errorMessage : option string;
  helperText : option string;
  id : string;
  image : option string;
  indeterminate : option bool;
  label : option string;
  labelDisplay : option LabelDisplay;
  name : option string;
  onChange : string;
  onClick : option string;
  size : option Size
}.

(** Props received by InternalCheckbox / VRInternalCheckbox. *)
Record InternalProps := {
  i_checked : bool;
  i_disabled : bool;
  i_errorMessage : option string;
  i_helperText : option string;
  i_id : string;
  i_image : option string;
  i_indeterminate : bool;
  i_label : option string;
  i_labelDisplay : LabelDisplay;
  i_name : option string;
  i_onChange : string;
  i_onClick : option string;
  i_size : Size
}.

Inductive Rendered :=
| InternalCheckbox (p : InternalProps)
| VRInternalCheckbox (p : InternalProps).

Definition dflt {A} (d : A) (o : option A) : A :=
  match o with Some x => x | None => d end.

(** [function Checkbox({ checked = false, disabled = false, ...,
    indeterminate = false, labelDisplay = 'visible', ..., size = 'md' })]
    with [isInVRExperiment] the value of [useInExperiment(...)]. *)
Definition Checkbox (isInVRExperiment : bool) (p : Props) : Rendered :=
  let ip := {|
    i_checked := dflt false (checked p);
    i_disabled := dflt false (disabled p);
    i_errorMessage := errorMessage p;
    i_helperText := helperText p;
    i_id := id p;
    i_image := image p;
    i_indeterminate := dflt false (indeterminate p);
    i_label := label p;
    i_labelDisplay := dflt LDVisible (labelDisplay p);
    i_name := name p;
    i_onChange := onChange p;
    i_onClick := onClick p;
    i_size := dflt SizeMd (size p)
  |} in
  if isInVRExperiment then VRInternalCheckbox ip else InternalCheckbox ip.

(** A caller's props with every optional prop omitted. *)
Definition minimal_props : Props := {|
  checked := None; disabled := None; errorMessage := None; helperText := None;
  id := "terms"; image := None; indeterminate := None; label := Some "Accept";
  labelDisplay := None; name := None; onChange := "onChange"; onClick := None;
  size := None
|}.

(** [props] with each defaulted prop given explicitly: the values
    Checkbox's parameter list substitutes when a prop is omitted. *)
Definition fill_defaults (p : Props) : Props := {|
  checked := Some (dflt false (checked p));
  disabled := Some (dflt false (disabled p));
  errorMessage := errorMessage p; helperText := helperText p; id := id p;
  image := image p;
  indeterminate := Some (dflt false (indeterminate p));
  label := label p;
  labelDisplay := Some (dflt LDVisible (labelDisplay p));
  name := name p; onChange := onChange p; onClick := onClick p;
  size := Some (dflt SizeMd (size p))
|}.

End Checkbox.

Module DatePicker.

Inductive Direction := Up | Right | Down | Left.
Inductive DeviceType := DTDesktop | DTMobile.

(** Caller-supplied props of DatePicker (a representative subset of the
    forwarded fields; dates and callbacks are opaque names). *)
Record Props := {
  disabled : option bool;
  disableMobileUI : option bool;
  id : string;
  idealDirection : option Direction;
  label : option string;
  onChange : string;
  placeholder : option string;
  readOnly : option bool;
  value : option string
}.

(** Presentation flags of InternalDatePicker. *)
Inductive IDPMode := Plain | InputOnly | Inline.

(** Props received by one InternalDatePicker element. [idp_onFocus] and
    [idp_onSelect] record whether the handler is passed. *)
Record IDPProps := {
  idp_mode : IDPMode;
  idp_disabled : option bool;
  idp_id : string;
  idp_idealDirection : Direction;
  idp_label : option string;
  idp_onChange : string;
  idp_onFocus : bool;
  idp_onSelect : bool;
  idp_placeholder : option string;
  idp_readOnly : option bool;
  idp_value : option string
}.

(** What DatePicker renders: the desktop branch, or the mobile branch with
    its input-only field and, when [showMobileCalendar], the SheetMobile
    hosting the inline calendar. *)
Inductive View :=
| VDesktop (field : IDPProps)
| VMobile (field : IDPProps) (sheet : option IDPProps).

(** Defaulted props: [disableMobileUI = false], [idealDirection = 'down']. *)
Definition disableMobileUI_d (p : Props) : bool :=
  match disableMobileUI p with Some b => b | None => false end.
Definition idealDirection_d (p : Props) : Direction :=
  match idealDirection p with Some d => d | None => Down end.

(** [const isMobile = deviceType === 'mobile'] *)
Definition isMobile (dt : DeviceType) : bool :=
  match dt with DTMobile => true | DTDesktop => false end.

(** The condition of the mobile branch. *)
Definition mobile_branch (dt : DeviceType) (p : Props) : bool :=
  isMobile dt && negb (disableMobileUI_d p).

(** [useState<boolean>(false)] *)
Definition initial_showMobileCalendar : bool := false.

Definition desktop_field (p : Props) : IDPProps := {|
  idp_mode := Plain; idp_disabled := disabled p; idp_id := id p;
  idp_idealDirection := idealDirection_d p; idp_label := label p;
  idp_onChange := onChange p; idp_onFocus := false; idp_onSelect := false;
  idp_placeholder := placeholder p; idp_readOnly := readOnly p;
  idp_value := value p
|}.

Definition mobile_field (p : Props) : IDPProps := {|
  idp_mode := InputOnly; idp_disabled := disabled p; idp_id := id p;
  idp_idealDirection := idealDirection_d p; idp_label := label p;
  idp_onChange := onChange p; idp_onFocus := true; idp_onSelect := false;
  idp_placeholder := placeholder p; idp_readOnly := readOnly p;
  idp_value := value p
|}.

(** The calendar inside the sheet: [disabled], [label], [placeholder] and
    [readOnly] are not passed. *)
Definition sheet_calendar (p : Props) : IDPProps := {|
  idp_mode := Inline; idp_disabled := None; idp_id := id p;
  idp_idealDirection := idealDirection_d p; idp_label := None;
  idp_onChange := onChange p; idp_onFocus := false; idp_onSelect := true;
  idp_placeholder := None; idp_readOnly := None;
  idp_value := value p
|}.

(** DatePicker's render, given the device type and [showMobileCalendar]. *)
Definition render (dt : DeviceType) (p : Props) (showMobileCalendar : bool) : View :=
  if mobile_branch dt p then
    VMobile (mobile_field p)
      (if showMobileCalendar then Some (sheet_calendar p) else None)
  else VDesktop (desktop_field p).

Definition renders_sheet (v : View) : bool :=
  match v with
  | VMobile _ (Some _) => true
  | _ => false
  end.

(** The InternalDatePicker elements of a view. *)
Definition fields (v : View) : list IDPProps :=
  match v with
  | VDesktop f => [f]
  | VMobile f None => [f]
  | VMobile f (Some c) => [f; c]
  end.

(** User events reaching DatePicker's rendered tree. *)
Inductive Event :=
| FocusInput
| SelectDateInSheet
| TapDismissButton.

(** Modelled from the spec: SheetMobile's [onDismissStart] (SheetMobile is
    not among the sources). Dismissal runs the sheet's close transition and
    then calls the [onDismiss] prop the sheet was given. *)
Definition SheetMobile_onDismissStart (onDismiss : bool -> bool) (s : bool) : bool :=
  onDismiss s.

(** [onDismiss={() => setShowMobileCalendar(false)}] *)
Definition sheet_onDismiss (_ : bool) : bool := false.

(** One event: the handlers exist only where the rendered view has them. *)
Definition step (dt : DeviceType) (p : Props) (s : bool) (e : Event) : bool :=
  match render dt p s, e with
  | VMobile f _, FocusInput => if idp_onFocus f then true else s
  | VMobile _ (Some c), SelectDateInSheet =>
      if idp_onSelect c then SheetMobile_onDismissStart sheet_onDismiss s else s
  | VMobile _ (Some _), TapDismissButton =>
      SheetMobile_onDismissStart sheet_onDismiss s
  | _, _ => s
  end.

Fixpoint run (dt : DeviceType) (p : Props) (s : bool) (es : list Event) : bool :=
  match es with
  | [] => s
  | e :: es' => run dt p (step dt p s e) es'
  end.

(** [props] with [idealDirection] replaced. *)
Definition with_idealDirection (p : Props) (d : option Direction) : Props := {|
  disabled := disabled p; disableMobileUI := disableMobileUI p; id := id p;
  idealDirection := d; label := label p; onChange := onChange p;
  placeholder := placeholder p; readOnly := readOnly p; value := value p
|}.

(** [props] with [disableMobileUI] replaced. *)
Definition with_disableMobileUI (p : Props) (b : option bool) : Props := {|
  disabled := disabled p; disableMobileUI := b; id := id p;
  idealDirection := idealDirection p; label := label p; onChange := onChange p;
  placeholder := placeholder p; readOnly := readOnly p; value := value p
|}.

(** A caller's props with only the required ones given. *)
Definition minimal_props : Props := {|
  disabled := None; disableMobileUI := None; id := "start-date";
  idealDirection := None; label := Some "Start date"; onChange := "onChange";
  placeholder := None; readOnly := None; value := None
|}.


End DatePicker.

(** ** The Tooltip positioning example ([docs/examples/tooltip]) *)

Module ProperPositioningExample.

(** The three [useState<string | null>(null)] values. *)
Record State := {
  content : option string;
  claimed : option string;
  device : option string
}.

Definition initial : State := {| content := None; claimed := None; device := None |}.

Inductive Group := GContent | GClaimed | GDevice.

(** One [RadioGroup.RadioButton]: [checked={x === checkedWhen}],
    [onChange={() => setX(onChangeSets)}], and its [value]. *)
Record Radio := {
  r_id : string;
  r_label : string;
  r_name : string;
  r_checkedWhen : string;
  r_onChangeSets : string;
  r_value : string
}.

Definition mkRadio (i l n c o v : string) : Radio :=
  {| r_id := i; r_label := l; r_name := n; r_checkedWhen := c;
     r_onChangeSets := o; r_value := v |}.

Definition radios (g : Group) : list Radio :=
  match g with
  | GContent =>
      [mkRadio "allcontent" "All" "content" "all" "all" "all";
       mkRadio "organic" "Organic" "content" "organic" "organic" "organic";
       mkRadio "paid" "Paid and earned" "content" "paid" "paid" "paid"]
  | GClaimed =>
      [mkRadio "allclaimed" "All Pins" "claimed" "all" "all" "all";
       mkRadio "instagram" "Instagram" "claimed" "instagram" "instagram" "instagram";
       mkRadio "other" "Other pins" "claimed" "other" "other" "other"]
  | GDevice =>
      [mkRadio "alldevices" "All" "device" "all" "all" "all";
       mkRadio "mobile" "Mobile" "device" "mobile" "mobile" "mobile";
       mkRadio "desktop" "Desktop" "device" "desktop" "desktop" "desktop";
       mkRadio "tablet" "Tablet" "device" "tablet" "tablet" "tablet"]
  end.

(** The state variable a group reads and writes. *)
Definition group_value (g : Group) (s : State) : option string :=
  match g with
  | GContent => content s
  | GClaimed => claimed s
  | GDevice => device s
  end.

Definition set_group (g : Group) (v : string) (s : State) : State :=
  match g with
  | GContent => {| content := Some v; claimed := claimed s; device := device s |}
  | GClaimed => {| content := content s; claimed := Some v; device := device s |}
  | GDevice => {| content := content s; claimed := claimed s; device := Some v |}
  end.

(** [checked={x === 'lit'}]: a null state is never strictly equal to a
    string. *)
Definition checked (g : Group) (s : State) (r : Radio) : bool :=
  match group_value g s with
  | Some v => String.eqb v (r_checkedWhen r)
  | None => false
  end.

(** The radio buttons of a group that render as checked. *)
Definition checked_radios (g : Group) (s : State) : list Radio :=
  filter (checked g s) (radios g).

(** A change event on the [i]-th radio button of group [g]. *)
Definition onChange (g : Group) (i : nat) (s : State) : State :=
  match nth_error (radios g) i with
  | Some r => set_group g (r_onChangeSets r) s
  | None => s
  end.

End ProperPositioningExample.

(** ** Properties of IconButtonEnd *)

Module IconButtonEndFacts.
Import IconButtonEnd TapAreaDispatch.

Lemma run_fold (s : bool) (es : list TapEvent) :
  run s es = fold_left (fun acc e => out_focused (handle acc e)) es s.
Proof.
  revert s; induction es as [|e es IH]; intros s; simpl; [reflexivity|].
  apply IH.
Qed.

Lemma fold_left_ext_in_acc (es : list TapEvent) :
  forall s : bool,
  fold_left (fun acc e => out_focused (handle acc e)) es s =
  fold_left (fun acc e => match e with
                          | EvFocus | EvMouseEnter => true
                          | EvBlur | EvMouseLeave => false
                          | _ => acc end) es s.
Proof.
  induction es as [|e es IH]; intros s; simpl; [reflexivity|].
  rewrite IH; f_equal; destruct e; reflexivity.
Qed.

Lemma run_last_enter_or_focus (es : list TapEvent) :
  run initial_focused es = last_enter_or_focus es.
Proof.
  rewrite run_fold; unfold last_enter_or_focus, initial_focused.
  apply fold_left_ext_in_acc.
Qed.

(** C1: on key-down, Enter and Space call [onClick] exactly once and prevent
    the default action; Tab calls nothing and leaves the default action;
    any other key prevents the default action without calling [onClick]. *)
Theorem keydown_contract (focused : bool) (k : Z) :
  (out_onClick_calls (handle focused (EvKeyDown ENTER)) = 1 /\
   out_defaultPrevented (handle focused (EvKeyDown ENTER)) = true) /\
  (out_onClick_calls (handle focused (EvKeyDown SPACE)) = 1 /\
   out_defaultPrevented (handle focused (EvKeyDown SPACE)) = true) /\
  (out_onClick_calls (handle focused (EvKeyDown TAB)) = 0 /\
   out_defaultPrevented (handle focused (EvKeyDown TAB)) = false) /\
  (k <> ENTER -> k <> SPACE -> k <> TAB ->
   out_onClick_calls (handle focused (EvKeyDown k)) = 0 /\
   out_defaultPrevented (handle focused (EvKeyDown k)) = true).
Proof.
  split; [split; reflexivity|].
  split; [split; reflexivity|].
  split; [split; reflexivity|].
  intros HE HS HT.
  cbn [handle onKeyDown includes existsb out_onClick_calls out_defaultPrevented].
  rewrite (proj2 (Z.eqb_neq _ _) (not_eq_sym HE)),
          (proj2 (Z.eqb_neq _ _) (not_eq_sym HS)),
          (proj2 (Z.eqb_neq _ _) HT).
  split; reflexivity.
Qed.

Lemma last_enter_or_focus_false (es : list TapEvent) :
  forall a b c : bool,
  (c = true -> a = true \/ b = true) ->
  fold_left (fun acc e => match e with
                          | EvMouseEnter => true
                          | EvMouseLeave => false
                          | _ => acc end) es a = false ->
  fold_left (fun acc e => match e with
                          | EvFocus => true
                          | EvBlur => false
                          | _ => acc end) es b = false ->
  fold_left (fun acc e => match e with
                          | EvFocus | EvMouseEnter => true
                          | EvBlur | EvMouseLeave => false
                          | _ => acc end) es c = false.
Proof.
  induction es as [|e es IH]; intros a b c Hc Ha Hb; simpl in *.
  - subst a b; destruct c; [destruct (Hc eq_refl); discriminate|reflexivity].
  - destruct e; simpl in *; eapply IH; try eassumption; intros H;
      first [ left; reflexivity | right; reflexivity | discriminate
            | exact (Hc H) ].
Qed.


(** C4 (as stated, refuted): keyboard focus, then the pointer enters and
    leaves. The element still holds focus and [hoverStyle] is 'default', yet
    the shared [focused] flag was cleared by the mouse-leave and the
    background is transparent. *)
Lemma hover_bg_counterexample :
  ~ (forall p es,
       bg_after p es = LightGray <->
       hoverStyle_d p = HSDefault /\
       (pointer_inside es = true \/ has_focus es = true)).
Proof.
  intros H.
  destruct (H bare_props [EvFocus; EvMouseEnter; EvMouseLeave]) as [_ H2].
  assert (Hc : bg_after bare_props [EvFocus; EvMouseEnter; EvMouseLeave] = Transparent)
    by reflexivity.
  rewrite Hc in H2.
  discriminate (H2 (conj eq_refl (or_intror eq_refl))).
Qed.

(** C4 (amended): the background is lightGray exactly when [hoverStyle] is
    'default' and the last of the focus, blur, pointer-enter and
    pointer-leave events was a focus or a pointer-enter; in particular it is
    transparent whenever [hoverStyle] is 'none', or the pointer is outside
    and the element is not focused. *)
Theorem hover_bg_amended (p : Props) (es : list TapEvent) :
  (bg_after p es = LightGray <->
   hoverStyle_d p = HSDefault /\ last_enter_or_focus es = true) /\
  (hoverStyle_d p = HSNone -> bg_after p es = Transparent) /\
  (pointer_inside es = false -> has_focus es = false ->
   bg_after p es = Transparent).
Proof.
  unfold bg_after, render_pog; cbn [pog_bgColor].
  rewrite run_last_enter_or_focus.
  split; [|split].
  - destruct (last_enter_or_focus es), (hoverStyle_d p); simpl;
      split; intros H; try reflexivity; try (split; reflexivity); try discriminate;
      destruct H; discriminate.
  - intros H; rewrite H; destruct (last_enter_or_focus es); reflexivity.
  - intros Hp Hf.
    unfold last_enter_or_focus.
    rewrite (last_enter_or_focus_false es false false false);
      [reflexivity|discriminate|exact Hp|exact Hf].
Qed.

(** C5: a pointer click, an Enter press or a Space press calls [onClick]
    exactly once in total, and for no physical action do both the key-down
    path and the [onTap] path call it. *)
Theorem one_activation_per_action (focused : bool) :
  total_calls focused PointerClick = 1 /\
  total_calls focused (KeyPress ENTER) = 1 /\
  total_calls focused (KeyPress SPACE) = 1 /\
  (forall a, fst (dispatch focused a) = 0 \/ snd (dispatch focused a) = 0).
Proof.
  split; [reflexivity|]. split; [reflexivity|]. split; [reflexivity|].
  intros [|k]; [left; reflexivity|].
  right; cbn [dispatch snd handle onKeyDown out_defaultPrevented out_onClick_calls].
  destruct (Z.eqb_spec k TAB) as [->|_].
  - reflexivity.
  - reflexivity.
Qed.

(** C6: with [accessibilityHidden=true] the only tap target rendered has
    tab index -1 and sits inside the Box carrying [aria-hidden=true], so it
    is hidden from assistive technology. *)
Theorem hidden_tap_target (p : Props) (focused : bool) :
  accessibilityHidden p = Some true ->
  tap_targets false (render p focused) = [(render_taparea_props p, true)] /\
  ta_tabIndex (render_taparea_props p) = (-1)%Z.
Proof.
  intros H; unfold render, render_taparea, render_taparea_props; rewrite H.
  split; [|reflexivity].
  destruct (tooltipText p) as [| |s]; unfold MaybeTooltip;
    [reflexivity|reflexivity|destruct (truthy (JStr s)); reflexivity].
Qed.

Lemma hidden_tap_target_witness :
  accessibilityHidden
    {| accessibilityChecked := None; accessibilityHidden := Some true;
       accessibilityLabel := Some "Clear"; hoverStyle := None; icon := Cancel;
       pogPadding := None; role := None; tapStyle := None;
       tooltipText := JStr "Clear" |} = Some true /\
  tap_targets false
    (render {| accessibilityChecked := None; accessibilityHidden := Some true;
               accessibilityLabel := Some "Clear"; hoverStyle := None; icon := Cancel;
               pogPadding := None; role := None; tapStyle := None;
               tooltipText := JStr "Clear" |} false)
  = [(render_taparea_props
        {| accessibilityChecked := None; accessibilityHidden := Some true;
           accessibilityLabel := Some "Clear"; hoverStyle := None; icon := Cancel;
           pogPadding := None; role := None; tapStyle := None;
           tooltipText := JStr "Clear" |}, true)] /\
  ta_tabIndex (render_taparea_props
        {| accessibilityChecked := None; accessibilityHidden := Some true;
           accessibilityLabel := Some "Clear"; hoverStyle := None; icon := Cancel;
           pogPadding := None; role := None; tapStyle := None;
           tooltipText := JStr "Clear" |}) = (-1)%Z.
Proof.
  split; [reflexivity|].
  apply hidden_tap_target; reflexivity.
Defined.

(** C8: focus, blur, pointer-enter and pointer-leave never call [onClick]
    nor prevent a default action; they only set the local [focused] state
    (true on focus and pointer-enter, false on blur and pointer-leave). *)
Theorem visual_events_do_not_activate (focused : bool) :
  handle focused EvFocus =
    {| out_focused := true; out_onClick_calls := 0; out_defaultPrevented := false |} /\
  handle focused EvBlur =
    {| out_focused := false; out_onClick_calls := 0; out_defaultPrevented := false |} /\
  handle focused EvMouseEnter =
    {| out_focused := true; out_onClick_calls := 0; out_defaultPrevented := false |} /\
  handle focused EvMouseLeave =
    {| out_focused := false; out_onClick_calls := 0; out_defaultPrevented := false |}.
Proof. repeat split. Qed.

(** C10: the tap target is wrapped in an (inline) Tooltip carrying the text
    exactly when [tooltipText] is a non-empty string; when it is undefined,
    null or the empty string the same tap-target subtree is rendered bare. *)
Theorem tooltip_iff_truthy (p : Props) (focused : bool) :
  (truthy (tooltipText p) = true /\
   exists s, tooltipText p = JStr s /\ s <> "" /\
     render p focused =
       Div "actionButtonContainer"
         (Box (accessibilityHidden p) (Tooltip true s (render_taparea p focused)))) \/
  (truthy (tooltipText p) = false /\
   (tooltipText p = JUndefined \/ tooltipText p = JNull \/ tooltipText p = JStr "") /\
   render p focused =
     Div "actionButtonContainer" (Box (accessibilityHidden p) (render_taparea p focused))).
Proof.
  unfold render, MaybeTooltip.
  destruct (tooltipText p) as [| |s].
  - right; split; [reflexivity|]; split; [left; reflexivity|reflexivity].
  - right; split; [reflexivity|]; split; [right; left; reflexivity|reflexivity].
  - unfold truthy; destruct (String.eqb_spec s "") as [->|Hne]; simpl.
    + right; split; [reflexivity|]; split; [right; right; reflexivity|reflexivity].
    + left; split; [reflexivity|]; exists s; split; [reflexivity|]; split; [exact Hne|].
      reflexivity.
Qed.

End IconButtonEndFacts.

(** ** Properties of Checkbox *)

Module CheckboxFacts.
Import Checkbox.

(** C3 (as stated, refuted): when the caller omits [checked], [disabled]
    and [indeterminate], InternalCheckbox does not receive the caller's
    (absent) values: it receives [false] for each, from the defaults of
    Checkbox's parameter list. *)
Lemma checkbox_counterexample :
  ~ (forall p ip,
       Checkbox false p = InternalCheckbox ip ->
       Some (i_checked ip) = checked p /\
       Some (i_disabled ip) = disabled p /\
       Some (i_indeterminate ip) = indeterminate p).
Proof.
  intros H.
  destruct (H minimal_props _ eq_refl) as [Hc _].
  discriminate Hc.
Qed.

(** C3 (amended): with the flag off, InternalCheckbox receives [checked],
    [disabled] and [indeterminate] equal to the caller's values, [false]
    where the caller omits them; with the flag on, VRInternalCheckbox
    receives exactly the prop set InternalCheckbox would have received. *)
Theorem checkbox_variants (p : Props) :
  exists ip,
    Checkbox false p = InternalCheckbox ip /\
    Checkbox true p = VRInternalCheckbox ip /\
    i_checked ip = dflt false (checked p) /\
    i_disabled ip = dflt false (disabled p) /\
    i_indeterminate ip = dflt false (indeterminate p).
Proof.
  eexists; split; [reflexivity|].
  repeat split.
Qed.

End CheckboxFacts.

(** ** Properties of DatePicker *)

Module DatePickerFacts.
Import DatePicker.

Lemma render_not_mobile (dt : DeviceType) (p : Props) (s : bool) :
  mobile_branch dt p = false -> render dt p s = VDesktop (desktop_field p).
Proof. intros H; unfold render; rewrite H; reflexivity. Qed.

(** C2: on a mobile device with [disableMobileUI] false the sheet starts
    closed; focusing the input opens it; selecting a date in the sheet's
    calendar or tapping its dismiss button closes it again. *)
Theorem mobile_sheet_cycle (p : Props) :
  disableMobileUI_d p = false ->
  initial_showMobileCalendar = false /\
  renders_sheet (render DTMobile p initial_showMobileCalendar) = false /\
  step DTMobile p false FocusInput = true /\
  renders_sheet (render DTMobile p (step DTMobile p false FocusInput)) = true /\
  step DTMobile p true SelectDateInSheet = false /\
  renders_sheet (render DTMobile p (step DTMobile p true SelectDateInSheet)) = false /\
  step DTMobile p true TapDismissButton = false /\
  renders_sheet (render DTMobile p (step DTMobile p true TapDismissButton)) = false.
Proof.
  intros H.
  assert (Hm : mobile_branch DTMobile p = true)
    by (unfold mobile_branch; rewrite H; reflexivity).
  unfold step, render; rewrite !Hm.
  repeat split.
Qed.

Lemma mobile_sheet_cycle_witness :
  disableMobileUI_d minimal_props = false /\
  initial_showMobileCalendar = false /\
  renders_sheet (render DTMobile minimal_props initial_showMobileCalendar) = false /\
  step DTMobile minimal_props false FocusInput = true /\
  renders_sheet (render DTMobile minimal_props
                   (step DTMobile minimal_props false FocusInput)) = true /\
  step DTMobile minimal_props true SelectDateInSheet = false /\
  renders_sheet (render DTMobile minimal_props
                   (step DTMobile minimal_props true SelectDateInSheet)) = false /\
  step DTMobile minimal_props true TapDismissButton = false /\
  renders_sheet (render DTMobile minimal_props
                   (step DTMobile minimal_props true TapDismissButton)) = false.
Proof.
  split; [reflexivity|].
  apply mobile_sheet_cycle; reflexivity.
Defined.

(** C7: on a non-mobile device, or with [disableMobileUI] true, after any
    sequence of events DatePicker renders only the plain InternalDatePicker
    and never the SheetMobile. *)
Theorem no_sheet_off_mobile (dt : DeviceType) (p : Props) (es : list Event) :
  dt = DTDesktop \/ disableMobileUI p = Some true ->
  render dt p (run dt p initial_showMobileCalendar es) = VDesktop (desktop_field p) /\
  renders_sheet (render dt p (run dt p initial_showMobileCalendar es)) = false.
Proof.
  intros H.
  assert (Hm : mobile_branch dt p = false).
  { unfold mobile_branch, disableMobileUI_d.
    destruct H as [ -> | -> ]; [reflexivity|].
    rewrite andb_false_r; reflexivity. }
  rewrite (render_not_mobile dt p _ Hm).
  split; reflexivity.
Qed.

Lemma no_sheet_off_mobile_witness :
  (DTMobile = DTDesktop \/
   disableMobileUI (with_disableMobileUI minimal_props (Some true)) = Some true) /\
  render DTMobile (with_disableMobileUI minimal_props (Some true))
    (run DTMobile (with_disableMobileUI minimal_props (Some true))
       initial_showMobileCalendar [FocusInput; TapDismissButton; FocusInput])
  = VDesktop (desktop_field (with_disableMobileUI minimal_props (Some true))) /\
  renders_sheet
    (render DTMobile (with_disableMobileUI minimal_props (Some true))
       (run DTMobile (with_disableMobileUI minimal_props (Some true))
          initial_showMobileCalendar [FocusInput; TapDismissButton; FocusInput]))
  = false.
Proof.
  split; [right; reflexivity|].
  apply no_sheet_off_mobile; right; reflexivity.
Defined.

(** C9: an omitted [idealDirection] becomes 'down' and every
    InternalDatePicker rendered (desktop field, mobile input-only field,
    sheet calendar) receives 'down', exactly as if the caller had passed
    'down'; an omitted [disableMobileUI] behaves exactly as [false]. *)
Theorem prop_defaults (dt : DeviceType) (p : Props) (s : bool) :
  (idealDirection p = None ->
   Forall (fun q => idp_idealDirection q = Down) (fields (render dt p s)) /\
   render dt p s = render dt (with_idealDirection p (Some Down)) s) /\
  (disableMobileUI p = None ->
   disableMobileUI_d p = false /\
   render dt p s = render dt (with_disableMobileUI p (Some false)) s /\
   (forall e, step dt p s e = step dt (with_disableMobileUI p (Some false)) s e)).
Proof.
  destruct p as [p_dis p_dmu p_id p_dir p_lab p_oc p_ph p_ro p_v]; simpl.
  split.
  - intros ->.
    unfold render, mobile_branch, disableMobileUI_d; simpl.
    destruct (isMobile dt && negb match p_dmu with Some b => b | None => false end), s;
      simpl; split; repeat constructor.
  - intros ->.
    split; [reflexivity|].
    split; [reflexivity|].
    intros e; reflexivity.
Qed.

End DatePickerFacts.

(** ** Further properties of IconButtonEnd *)

Module IconButtonEndMore.
Import IconButtonEnd.

(** Unless [accessibilityHidden] is true, the single tap target is keyboard
    reachable (tab index 0) and no enclosing element is [aria-hidden]. *)
Theorem visible_tap_target (p : Props) (focused : bool) :
  accessibilityHidden p <> Some true ->
  tap_targets false (render p focused) = [(render_taparea_props p, false)] /\
  ta_tabIndex (render_taparea_props p) = 0%Z.
Proof.
  intros H.
  assert (Hb : match accessibilityHidden p with Some true => true | _ => false end = false).
  { destruct (accessibilityHidden p) as [[|]|]; [congruence|reflexivity|reflexivity]. }
  unfold render, render_taparea; cbn [tap_targets]; rewrite Hb; cbn [orb].
  split.
  - destruct (tooltipText p) as [| |s]; unfold MaybeTooltip;
      [reflexivity|reflexivity|destruct (truthy (JStr s)); reflexivity].
  - unfold render_taparea_props; cbn [ta_tabIndex].
    destruct (accessibilityHidden p) as [[|]|]; [congruence|reflexivity|reflexivity].
Qed.

Lemma visible_tap_target_witness :
  accessibilityHidden bare_props <> Some true /\
  tap_targets false (render bare_props true) = [(render_taparea_props bare_props, false)] /\
  ta_tabIndex (render_taparea_props bare_props) = 0%Z.
Proof.
  split; [discriminate|].
  apply visible_tap_target; discriminate.
Defined.

(** The tooltip text never changes the tap target's props nor whether it
    is hidden from assistive technology. *)
Theorem tooltip_keeps_tap_target (p : Props) (t : NullableString) (focused : bool) :
  tap_targets false (render (with_tooltipText p t) focused) =
  tap_targets false (render p focused).
Proof.
  assert (Hm : forall u c, tap_targets false (MaybeTooltip u c) = tap_targets false c /\
                           forall h, tap_targets h (MaybeTooltip u c) = tap_targets h c).
  { intros u c; destruct u as [| |s]; unfold MaybeTooltip;
      [split; reflexivity|split; reflexivity|].
    destruct (truthy (JStr s)); split; reflexivity. }
  unfold render; cbn [tap_targets].
  rewrite (proj2 (Hm _ _)), (proj2 (Hm _ _)).
  reflexivity.
Qed.

Lemma run_calls_count (s : bool) (es : list TapEvent) :
  run_calls s es = length (filter is_activation es).
Proof.
  revert s; induction es as [|e es IH]; intros s; [reflexivity|].
  cbn [run_calls filter]; rewrite IH.
  destruct e; cbn [handle out_onClick_calls is_activation]; try reflexivity.
  unfold onKeyDown; cbn [out_onClick_calls].
  destruct (includes [ENTER; SPACE] keyCode); reflexivity.
Qed.

(** Over any sequence of events, [onClick] is called exactly once per tap
    and once per Enter or Space key-down, and never otherwise. *)
Theorem onClick_calls_per_sequence (es : list TapEvent) :
  run_calls initial_focused es = length (filter is_activation es).
Proof. apply run_calls_count. Qed.

(** [preventDefault] runs exactly for key-downs of a key other than Tab:
    no focus, hover or tap event prevents a default action. *)
Theorem preventDefault_only_on_keydown (focused : bool) (e : TapEvent) :
  out_defaultPrevented (handle focused e) = true <->
  exists k, e = EvKeyDown k /\ k <> TAB.
Proof.
  destruct e; cbn [handle out_defaultPrevented];
    try (split; [discriminate|intros [k [Hk _]]; discriminate Hk]).
  unfold onKeyDown; cbn [out_defaultPrevented].
  split.
  - intros H; exists keyCode; split; [reflexivity|].
    intros Ht; rewrite Ht, Z.eqb_refl in H; discriminate.
  - intros [k [Hk Ht]]; injection Hk as <-.
    rewrite (proj2 (Z.eqb_neq _ _) Ht); reflexivity.
Qed.

(** Key-downs and taps leave the background unchanged: only focus and
    hover events change it. *)
Theorem activation_keeps_background (p : Props) (es : list TapEvent) (k : Z) :
  bg_after p (es ++ [EvKeyDown k]) = bg_after p es /\
  bg_after p (es ++ [EvTap]) = bg_after p es.
Proof.
  unfold bg_after; rewrite !IconButtonEndFacts.run_fold, !fold_left_app; cbn [fold_left].
  split; reflexivity.
Qed.

End IconButtonEndMore.

(** ** Further properties of Checkbox *)

Module CheckboxMore.
Import Checkbox.

(** Passing the default values explicitly renders exactly as omitting
    them, under either value of the experiment flag. *)
Theorem explicit_defaults_same_render (flag : bool) (p : Props) :
  Checkbox flag (fill_defaults p) = Checkbox flag p.
Proof. destruct p; reflexivity. Qed.


End CheckboxMore.

(** ** Further properties of DatePicker *)

Module DatePickerMore.
Import DatePicker.



(** With [disableMobileUI] true, DatePicker renders on every device type
    exactly what it renders on a desktop, and no event changes its local
    state. *)
Theorem disableMobileUI_is_desktop (dt : DeviceType) (p : Props) (s : bool) (es : list Event) :
  disableMobileUI p = Some true ->
  render dt p s = render DTDesktop p s /\ run dt p s es = s.
Proof.
  intros H.
  assert (Hm : forall dt', mobile_branch dt' p = false).
  { intros dt'; unfold mobile_branch, disableMobileUI_d; rewrite H.
    apply andb_false_r. }
  split; [unfold render; rewrite !Hm; reflexivity|].
  revert s; induction es as [|e es IH]; intros s; [reflexivity|].
  cbn [run]; unfold step at 1; unfold render at 1; rewrite Hm.
  apply IH.
Qed.

Lemma disableMobileUI_is_desktop_witness :
  disableMobileUI (with_disableMobileUI minimal_props (Some true)) = Some true /\
  render DTMobile (with_disableMobileUI minimal_props (Some true)) true =
    render DTDesktop (with_disableMobileUI minimal_props (Some true)) true /\
  run DTMobile (with_disableMobileUI minimal_props (Some true)) true
    [FocusInput; SelectDateInSheet] = true.
Proof.
  split; [reflexivity|].
  apply disableMobileUI_is_desktop; reflexivity.
Defined.

(** In the mobile branch the sheet's state after a non-empty sequence of
    events depends only on the last one: open after a focus of the input,
    closed after a date selection or a dismissal (which are no-ops while it
    is already closed). *)
Theorem mobile_state_last_event (dt : DeviceType) (p : Props) (s : bool)
    (es : list Event) (e : Event) :
  mobile_branch dt p = true ->
  run dt p s (es ++ [e]) = match e with FocusInput => true | _ => false end.
Proof.
  intros Hm.
  assert (Hr : forall s' es', run dt p s' (es' ++ [e]) = step dt p (run dt p s' es') e).
  { intros s' es'; revert s'; induction es' as [|e' es' IH]; intros s';
      [reflexivity|apply IH]. }
  rewrite Hr.
  unfold step, render; rewrite Hm.
  destruct (run dt p s es), e; reflexivity.
Qed.

Lemma mobile_state_last_event_witness :
  mobile_branch DTMobile minimal_props = true /\
  run DTMobile minimal_props false ([FocusInput; TapDismissButton] ++ [FocusInput]) = true.
Proof.
  split; [reflexivity|].
  apply (mobile_state_last_event DTMobile minimal_props false _ FocusInput); reflexivity.
Defined.

End DatePickerMore.

(** ** Properties of the Tooltip positioning example *)

Module ProperPositioningExampleFacts.
Import ProperPositioningExample.

Lemma filter_none (v : string) (l : list Radio) :
  ~ In v (map r_checkedWhen l) ->
  filter (fun r => String.eqb v (r_checkedWhen r)) l = [].
Proof.
  induction l as [|r l IH]; intros Hn; [reflexivity|].
  cbn [filter]; destruct (String.eqb_spec v (r_checkedWhen r)) as [He|He].
  - exfalso; apply Hn; left; symmetry; exact He.
  - apply IH; intros Hi; apply Hn; right; exact Hi.
Qed.

Lemma filter_at_most_one (v : string) (l : list Radio) :
  NoDup (map r_checkedWhen l) ->
  length (filter (fun r => String.eqb v (r_checkedWhen r)) l) <= 1.
Proof.
  induction l as [|r l IH]; intros Hd; cbn [filter length]; [lia|].
  inversion Hd as [|x xs Hnin Hd' Heq]; subst.
  destruct (String.eqb_spec v (r_checkedWhen r)) as [He|He].
  - subst v; rewrite filter_none by exact Hnin; cbn; lia.
  - apply IH; exact Hd'.
Qed.

Lemma radios_nodup (g : Group) : NoDup (map r_checkedWhen (radios g)).
Proof.
  destruct g; cbn;
    repeat (constructor; [cbn; intuition congruence|]); constructor.
Qed.

(** In every state, each radio group of the example shows at most one
    checked radio button. *)
Theorem at_most_one_checked (g : Group) (s : State) :
  length (checked_radios g s) <= 1.
Proof.
  unfold checked_radios, checked.
  destruct (group_value g s) as [v|].
  - apply filter_at_most_one, radios_nodup.
  - induction (radios g); cbn; lia.
Qed.

(** Changing radio button [i] of a group makes it the one checked button of
    that group and leaves the other groups' selections untouched. *)
Theorem onChange_selects_exactly (g : Group) (i : nat) (r : Radio) (s : State) :
  nth_error (radios g) i = Some r ->
  checked_radios g (onChange g i s) = [r] /\
  (forall g', g' <> g -> group_value g' (onChange g i s) = group_value g' s).
Proof.
  intros Hi; unfold onChange; rewrite Hi.
  split.
  - destruct g; destruct i as [|[|[|[|[|i]]]]]; cbn in Hi;
      first [discriminate | injection Hi as <-; reflexivity].
  - intros g' Hne; destruct g, g'; try reflexivity; exfalso; apply Hne; reflexivity.
Qed.

Lemma onChange_selects_exactly_witness :
  nth_error (radios GDevice) 2 = Some (mkRadio "desktop" "Desktop" "device" "desktop" "desktop" "desktop") /\
  checked_radios GDevice (onChange GDevice 2 initial) =
    [mkRadio "desktop" "Desktop" "device" "desktop" "desktop" "desktop"] /\
  (forall g', g' <> GDevice ->
     group_value g' (onChange GDevice 2 initial) = group_value g' initial).
Proof.
  split; [reflexivity|].
  apply onChange_selects_exactly; reflexivity.
Defined.

End ProperPositioningExampleFacts.
